(** * Book catalogue search: the search-form handler and the list update

    A shallow embedding of [handleSearchFormSubmit] and [updateBookList]
    (the search module of the catalogue browser) together with the parts of
    the browser state they read and write.

    Conventions of the embedding:
    - a JavaScript string is a [string] of code units below 256 (Latin-1);
    - a JavaScript integer-valued number ([results.length], [page],
      [BOOKS_PER_PAGE]) is a [Z];
    - a JavaScript object used as a dictionary ([authors], the [filters]
      object built from the form data) is a [gmap] of its own properties,
      with string keys; what [authors] inherits from [Object.prototype] is
      looked up where its properties are read under a computed name;
    - the handler runs in a state-and-exception monad over [World]; a
      [TypeError] leaves the effects already performed in place. *)

From Stdlib Require Import ZArith Ascii String Bool List Lia.
From stdpp Require Import base option list gmap strings pretty.

Local Open Scope Z_scope.

(** ** JavaScript strings *)

Module JsString.

(** [String.prototype.toLowerCase] on one code unit of the Latin-1 range:
    A-Z and the accented capitals U+00C0..U+00DE (but not the
    multiplication sign U+00D7) move 32 places up. *)
Definition toLowerCase_char (c : ascii) : ascii :=
  let n := N_of_ascii c in
  if ((65 <=? n) && (n <=? 90))%N
     || ((192 <=? n) && (n <=? 222) && negb (n =? 215))%N
  then ascii_of_N (n + 32)
  else c.

Fixpoint toLowerCase (s : string) : string :=
  match s with
  | EmptyString => EmptyString
  | String c s' => String (toLowerCase_char c) (toLowerCase s')
  end.

(** White space and line terminators of the Latin-1 range: TAB, LF, VT,
    FF, CR, SPACE and NO-BREAK SPACE. *)
Definition isWhiteSpace (c : ascii) : bool :=
  let n := N_of_ascii c in
  ((9 <=? n) && (n <=? 13) || (n =? 32) || (n =? 160))%N.

Fixpoint trimStart (s : string) : string :=
  match s with
  | EmptyString => EmptyString
  | String c s' => if isWhiteSpace c then trimStart s' else s
  end.

Fixpoint trimEnd (s : string) : string :=
  match s with
  | EmptyString => EmptyString
  | String c s' =>
      match trimEnd s' with
      | EmptyString => if isWhiteSpace c then EmptyString
                       else String c EmptyString
      | r => String c r
      end
  end.

(** [String.prototype.trim] *)
Definition trim (s : string) : string := trimEnd (trimStart s).

Fixpoint startsWith (s sub : string) : bool :=
  match sub, s with
  | EmptyString, _ => true
  | String _ _, EmptyString => false
  | String a sub', String b s' => Ascii.eqb a b && startsWith s' sub'
  end.

(** [String.prototype.includes]: [sub] occurs in [s] at some position. *)
Fixpoint includes (s sub : string) : bool :=
  startsWith s sub ||
  match s with
  | EmptyString => false
  | String _ s' => includes s' sub
  end.

(** The empty string, and the characters that a Rocq literal cannot hold
    directly. *)
Definition empty : string := EmptyString.
Definition quote : string := String (ascii_of_nat 34) EmptyString.
Definition newline : string := String (ascii_of_nat 10) EmptyString.

End JsString.

Import JsString.

(** ** The catalogue (data.js) *)

(** A book record; of the fields of the catalogue only those the search
    module reads are kept. *)
Record Book := {
  id : string;
  title : string;
  author : string;
  genres : list string;
  image : string
}.

#[global] Instance Book_eq_dec : EqDecision Book.
Proof. solve_decision. Defined.

(** ** The filters object

    [Object.fromEntries(new FormData(form))]: one property per form field,
    whose value is a string or a [File]. A later entry of the same name
    overwrites an earlier one. *)

Inductive FormDataEntryValue :=
| USVString (s : string)
| File.

Definition fromEntries (formData : list (string * FormDataEntryValue))
  : gmap string FormDataEntryValue :=
  fold_left (fun o kv => <[kv.1 := kv.2]> o) formData ∅.

(** A property read [filters.name]; an absent property reads [undefined]. *)
Inductive value :=
| Undefined
| Str (s : string)
| FileObject.

Definition getProperty (o : gmap string FormDataEntryValue) (name : string)
  : value :=
  match o !! name with
  | None => Undefined
  | Some (USVString s) => Str s
  | Some File => FileObject
  end.

(** [v === s] for a string [s]. *)
Definition strictEquals (v : value) (s : string) : bool :=
  match v with
  | Str x => String.eqb x s
  | _ => false
  end.

(** [genres.includes(v)] on an array of strings. *)
Definition arrayIncludes (genres : list string) (v : value) : bool :=
  existsb (strictEquals v) genres.

Inductive exn := TypeError.

(** The outcome of evaluating an expression that may throw. *)
Inductive Completion (A : Type) :=
| Normal (a : A)
| Abrupt (e : exn).
Arguments Normal {A} a.
Arguments Abrupt {A} e.

(** [filters.title.trim() === '' ||
     book.title.toLowerCase().includes(filters.title.toLowerCase())];
    calling [trim] on [undefined] or on a [File] is a [TypeError]. *)
Definition titleMatch (filters : gmap string FormDataEntryValue) (book : Book)
  : Completion bool :=
  match getProperty filters "title" with
  | Str t =>
      Normal (String.eqb (trim t) empty
              || includes (toLowerCase (title book)) (toLowerCase t))
  | _ => Abrupt TypeError
  end.

(** [authorId === 'any' || book.author === authorId] *)
Definition authorMatch (filters : gmap string FormDataEntryValue) (book : Book)
  : bool :=
  let authorId := getProperty filters "author" in
  strictEquals authorId "any" || strictEquals authorId (author book).

(** [genre === 'any' || book.genres.includes(genre)] *)
Definition genreMatch (filters : gmap string FormDataEntryValue) (book : Book)
  : bool :=
  let genre := getProperty filters "genre" in
  strictEquals genre "any" || arrayIncludes (genres book) genre.

(** The loop [for (const book of books)] of [handleSearchFormSubmit], with
    the array [results] as an accumulator; [results.push(book)] appends. *)
Fixpoint searchLoop (filters : gmap string FormDataEntryValue)
    (books : list Book) (results : list Book) : Completion (list Book) :=
  match books with
  | [] => Normal results
  | book :: rest =>
      match titleMatch filters book with
      | Abrupt e => Abrupt e
      | Normal tm =>
          if tm && authorMatch filters book && genreMatch filters book
          then searchLoop filters rest (results ++ [book])
          else searchLoop filters rest results
      end
  end.

(** ** The page: the elements the search module looks up

    Only the properties the module reads or writes are kept. [children] are
    the preview buttons appended to an element. *)

Record Preview := {
  classList : list string;
  dataPreview : string;
  previewHTML : string
}.

Record Element := {
  disabled : bool;
  innerHTML : string;
  display : string;
  open : bool;
  children : list Preview
}.

Definition set_disabled (b : bool) (e : Element) : Element :=
  {| disabled := b; innerHTML := innerHTML e; display := display e;
     open := open e; children := children e |}.

(** Assigning [innerHTML] replaces whatever the element contained. *)
Definition set_innerHTML (s : string) (e : Element) : Element :=
  {| disabled := disabled e; innerHTML := s; display := display e;
     open := open e; children := [] |}.

Definition set_display (s : string) (e : Element) : Element :=
  {| disabled := disabled e; innerHTML := innerHTML e; display := s;
     open := open e; children := children e |}.

Definition set_open (b : bool) (e : Element) : Element :=
  {| disabled := disabled e; innerHTML := innerHTML e; display := display e;
     open := b; children := children e |}.

(** [e.appendChild(fragment)]: the children of the fragment move to the end
    of [e]. *)
Definition appendChild (fragment : list Preview) (e : Element) : Element :=
  {| disabled := disabled e; innerHTML := innerHTML e; display := display e;
     open := open e; children := children e ++ fragment |}.

(** What [document.querySelector] finds for each selector the module uses;
    [None] is the [null] of a selector without a match. The selectors are
    taken to match pairwise different elements. *)
Record Document := {
  dataListItems : option Element;      (* [data-list-items] *)
  dataListButton : option Element;     (* [data-list-button] *)
  dataSearchOverlay : option Element;  (* [data-search-overlay] *)
  dataListMessage : option Element;    (* [data-list-message] *)
  searchCancelButton : option Element; (* [data-search-cancel] *)
  searchButton : option Element        (* [data-search-button] *)
}.

(** ** The state the module runs in

    [books], [authors] and [BOOKS_PER_PAGE] are the exports of data.js and
    [page] the export of bookList.js; those files are not part of the
    sources at hand, so their values are left open. [console] collects what
    is logged and [scrollTop] is the scroll target of the window. *)
Record World := {
  books : list Book;
  authors : gmap string string;
  BOOKS_PER_PAGE : Z;
  page : Z;
  document : Document;
  scrollTop : Z;
  console : list string;
  defaultPrevented : bool
}.

Definition set_document (d : Document) (w : World) : World :=
  {| books := books w; authors := authors w;
     BOOKS_PER_PAGE := BOOKS_PER_PAGE w; page := page w; document := d;
     scrollTop := scrollTop w; console := console w;
     defaultPrevented := defaultPrevented w |}.

Definition set_scrollTop (y : Z) (w : World) : World :=
  {| books := books w; authors := authors w;
     BOOKS_PER_PAGE := BOOKS_PER_PAGE w; page := page w;
     document := document w; scrollTop := y; console := console w;
     defaultPrevented := defaultPrevented w |}.

Definition set_defaultPrevented (b : bool) (w : World) : World :=
  {| books := books w; authors := authors w;
     BOOKS_PER_PAGE := BOOKS_PER_PAGE w; page := page w;
     document := document w; scrollTop := scrollTop w; console := console w;
     defaultPrevented := b |}.

(** ** State and exceptions *)

Inductive Result (A : Type) :=
| Return (a : A) (w : World)
| Throw (e : exn) (w : World).
Arguments Return {A} a w.
Arguments Throw {A} e w.

Definition M (A : Type) : Type := World -> Result A.

#[global] Instance M_ret : MRet M := fun A a w => Return a w.

#[global] Instance M_bind : MBind M := fun A B f m w =>
  match m w with
  | Return a w' => f a w'
  | Throw e w' => Throw e w'
  end.

Definition throw {A} (e : exn) : M A := fun w => Throw e w.
Definition get : M World := fun w => Return w w.
Definition modify (f : World -> World) : M unit := fun w => Return tt (f w).
Definition liftCompletion {A} (c : Completion A) : M A :=
  match c with
  | Normal a => mret a
  | Abrupt e => throw e
  end.

(** The world a computation ends in, thrown or not. *)
Definition finalWorld {A} (r : Result A) : World :=
  match r with
  | Return _ w => w
  | Throw _ w => w
  end.

Definition throws {A} (r : Result A) : bool :=
  match r with
  | Return _ _ => false
  | Throw _ _ => true
  end.

(** Assignments to a property of a looked-up element. *)
Definition modifyDocument (f : Document -> Document) : M unit :=
  modify (fun w => set_document (f (document w)) w).

Definition with_dataListItems (e : Element) (d : Document) : Document :=
  {| dataListItems := Some e; dataListButton := dataListButton d;
     dataSearchOverlay := dataSearchOverlay d;
     dataListMessage := dataListMessage d;
     searchCancelButton := searchCancelButton d;
     searchButton := searchButton d |}.

Definition with_dataListButton (e : Element) (d : Document) : Document :=
  {| dataListItems := dataListItems d; dataListButton := Some e;
     dataSearchOverlay := dataSearchOverlay d;
     dataListMessage := dataListMessage d;
     searchCancelButton := searchCancelButton d;
     searchButton := searchButton d |}.

Definition with_dataSearchOverlay (e : Element) (d : Document) : Document :=
  {| dataListItems := dataListItems d; dataListButton := dataListButton d;
     dataSearchOverlay := Some e;
     dataListMessage := dataListMessage d;
     searchCancelButton := searchCancelButton d;
     searchButton := searchButton d |}.

Definition with_dataListMessage (e : Element) (d : Document) : Document :=
  {| dataListItems := dataListItems d; dataListButton := dataListButton d;
     dataSearchOverlay := dataSearchOverlay d;
     dataListMessage := Some e;
     searchCancelButton := searchCancelButton d;
     searchButton := searchButton d |}.

Definition with_searchCancelButton (e : Element) (d : Document) : Document :=
  {| dataListItems := dataListItems d; dataListButton := dataListButton d;
     dataSearchOverlay := dataSearchOverlay d;
     dataListMessage := dataListMessage d;
     searchCancelButton := Some e;
     searchButton := searchButton d |}.

Definition with_searchButton (e : Element) (d : Document) : Document :=
  {| dataListItems := dataListItems d; dataListButton := dataListButton d;
     dataSearchOverlay := dataSearchOverlay d;
     dataListMessage := dataListMessage d;
     searchCancelButton := searchCancelButton d;
     searchButton := Some e |}.

(** [if (el) { el.prop = v }]: nothing happens when the element is absent. *)
Definition whenPresent (sel : Document -> option Element)
    (upd : Element -> Document -> Document) (f : Element -> Element)
  : M unit :=
  modifyDocument (fun d =>
    match sel d with
    | Some e => upd (f e) d
    | None => d
    end).

(** [el.prop = v] without a guard: a [TypeError] when [el] is [null]. *)
Definition assign (sel : Document -> option Element)
    (upd : Element -> Document -> Document) (f : Element -> Element)
  : M unit :=
  fun w =>
    match sel (document w) with
    | Some e => Return tt (set_document (upd (f e) (document w)) w)
    | None => Throw TypeError w
    end.

(** ** [updateBookList] *)

(** [results.length - (page * BOOKS_PER_PAGE)] *)
Definition remainingBooks (length page BOOKS_PER_PAGE : Z) : Z :=
  length - page * BOOKS_PER_PAGE.

(** [remainingBooks > 0] *)
Definition hasRemaining (length page BOOKS_PER_PAGE : Z) : bool :=
  0 <? remainingBooks length page BOOKS_PER_PAGE.

(** [hasRemaining ? remainingBooks : 0] *)
Definition remaining (length page BOOKS_PER_PAGE : Z) : Z :=
  if hasRemaining length page BOOKS_PER_PAGE
  then remainingBooks length page BOOKS_PER_PAGE
  else 0.

Definition indent (n : nat) : string :=
  string_of_list_ascii (repeat " "%char n).

(** The template literal assigned to the button's [innerHTML]. *)
Definition showMoreHTML (remaining : Z) : string :=
  newline +:+ indent 12 +:+ "<span>Show more</span>" +:+
  newline +:+ indent 12 +:+ "<span class=" +:+ quote +:+ "list__remaining"
    +:+ quote +:+ ">(" +:+ pretty remaining +:+ ")</span>" +:+
  newline +:+ indent 8.

(** The functions that every object inherits from [Object.prototype], by
    the name of the property; [constructor] is the function [Object]. *)
Definition objectPrototypeFunctions : list (string * string) :=
  [("constructor", "Object");
   ("hasOwnProperty", "hasOwnProperty");
   ("isPrototypeOf", "isPrototypeOf");
   ("propertyIsEnumerable", "propertyIsEnumerable");
   ("toLocaleString", "toLocaleString");
   ("toString", "toString");
   ("valueOf", "valueOf");
   ("__defineGetter__", "__defineGetter__");
   ("__defineSetter__", "__defineSetter__");
   ("__lookupGetter__", "__lookupGetter__");
   ("__lookupSetter__", "__lookupSetter__")].

Fixpoint lookupProperty (name : string) (properties : list (string * string))
  : option string :=
  match properties with
  | [] => None
  | (key, v) :: rest =>
      if String.eqb key name then Some v else lookupProperty name rest
  end.

(** The text that a template literal gives for a property inherited from
    [Object.prototype]: a built-in function prints as its name around
    [native code] (the form of V8 and JavaScriptCore; the white space inside
    is the engine's), and [__proto__] reads the prototype, an object. A
    name that [Object.prototype] does not have gives [None]. *)
Definition inheritedText (name : string) : option string :=
  if String.eqb name "__proto__" then Some "[object Object]"
  else
    match lookupProperty name objectPrototypeFunctions with
    | Some f => Some ("function " +:+ f +:+ "() { [native code] }")
    | None => None
    end.

(** [`${authors[authorId]}`], where [authors] is an object literal: the
    name of the author if the table has the id as a property of its own;
    else what the table inherits under that name; else the text
    [undefined]. *)
Definition authorText (authors : gmap string string) (authorId : string)
  : string :=
  match authors !! authorId with
  | Some name => name
  | None =>
      match inheritedText authorId with
      | Some text => text
      | None => "undefined"
      end
  end.

Definition attr (name v : string) : string :=
  name +:+ "=" +:+ quote +:+ v +:+ quote.

(** The template literal assigned to a preview's [innerHTML]. *)
Definition previewTemplate (image title authorName : string) : string :=
  newline +:+ indent 12 +:+ "<img " +:+ attr "class" "preview__image" +:+ " "
    +:+ attr "src" image +:+ " />" +:+
  newline +:+ indent 12 +:+ "<div " +:+ attr "class" "preview__info" +:+ ">" +:+
  newline +:+ indent 16 +:+ "<h3 " +:+ attr "class" "preview__title" +:+ ">"
    +:+ title +:+ "</h3>" +:+
  newline +:+ indent 16 +:+ "<div " +:+ attr "class" "preview__author" +:+ ">"
    +:+ authorName +:+ "</div>" +:+
  newline +:+ indent 12 +:+ "</div>" +:+
  newline +:+ indent 8.

(** The body of the loop [for (const book of results)]: one preview button
    per book. *)
Definition createPreview (authors : gmap string string) (book : Book)
  : Preview :=
  {| classList := ["preview"];
     dataPreview := id book;
     previewHTML :=
       previewTemplate (image book) (title book)
                       (authorText authors (author book)) |}.

Definition updateBookList (results : list Book) : M unit :=
  w ← get;
  let len := Z.of_nat (length results) in
  let hasRemaining := hasRemaining len (page w) (BOOKS_PER_PAGE w) in
  let remaining := remaining len (page w) (BOOKS_PER_PAGE w) in
  whenPresent dataListButton with_dataListButton
    (set_disabled (negb hasRemaining));;
  whenPresent dataListButton with_dataListButton
    (set_innerHTML (showMoreHTML remaining));;
  let fragment := map (createPreview (authors w)) results in
  assign dataListItems with_dataListItems (set_innerHTML empty);;
  assign dataListItems with_dataListItems (appendChild fragment);;
  whenPresent dataListMessage with_dataListMessage
    (set_display (if (length results =? 0)%nat then "block" else "none"));;
  modifyDocument (fun d =>
    match dataListButton d, dataListMessage d with
    | Some b, Some m =>
        with_dataListMessage
          (set_display (if (length results =? 0)%nat then "block" else "none")
                       m)
          (with_dataListButton
             (set_display (if (0 <? length results)%nat then "block"
                           else "none") b) d)
    | _, _ => d
    end);;
  modify (set_scrollTop 0);;
  whenPresent dataSearchOverlay with_dataSearchOverlay (set_open false).

(** ** [handleSearchFormSubmit] *)

(** The submit event: what [new FormData(event.target)] enumerates. *)
Record Event := {
  formData : list (string * FormDataEntryValue)
}.

(** The array [results] once the loop over [books] is through. *)
Definition searchResults (event : Event) (w : World) : Completion (list Book) :=
  let filters := fromEntries (formData event) in
  searchLoop filters (books w) [].

Definition handleSearchFormSubmit (event : Event) : M unit :=
  modify (set_defaultPrevented true);;
  w ← get;
  results ← liftCompletion (searchResults event w);
  updateBookList results;;
  modifyDocument (fun d =>
    match searchCancelButton d, searchButton d with
    | Some c, Some s =>
        with_searchButton (set_disabled false s)
          (with_searchCancelButton (set_disabled false c) d)
    | _, _ => d
    end).

(** ** Observations *)

(** The previews the list container shows. *)
Definition rendered (w : World) : list Preview :=
  match dataListItems (document w) with
  | Some e => children e
  | None => []
  end.

(** The content of the array [results] when the loop is left. The loop can
    only throw while reading the title field, which it does for the first
    book, when the array is still empty. *)
Definition resultsArray (event : Event) (w : World) : list Book :=
  match searchResults event w with
  | Normal results => results
  | Abrupt _ => []
  end.

(** The test of the loop body, once the title field is known to be the
    string [t]. *)
Definition keeps (filters : gmap string FormDataEntryValue) (t : string)
    (book : Book) : bool :=
  (String.eqb (trim t) empty
   || includes (toLowerCase (title book)) (toLowerCase t))
  && authorMatch filters book && genreMatch filters book.

(** The data that no statement of the module assigns to: the catalogue,
    the author table, the page counter and the page size; nothing writes to
    the console either. *)
Record sameData (w w' : World) : Prop := {
  same_books : books w' = books w;
  same_authors : authors w' = authors w;
  same_page : page w' = page w;
  same_BOOKS_PER_PAGE : BOOKS_PER_PAGE w' = BOOKS_PER_PAGE w;
  same_console : console w' = console w
}.

(** A computation that keeps them, however it ends. *)
Definition framed {A} (m : M A) : Prop :=
  forall w, sameData w (finalWorld (m w)).

(** ** Sample data *)

Definition mkBook (i t a : string) (g : list string) : Book :=
  {| id := i; title := t; author := a; genres := g; image := "cover.png" |}.

Definition moby : Book := mkBook "b1" "Moby Dick" "a1" ["g1"].
Definition war : Book := mkBook "b2" "War and Peace" "a2" ["g2"].
Definition emma : Book := mkBook "b3" "Emma" "a3" ["g1"; "g2"].

Definition criteria (t a g : string) : list (string * FormDataEntryValue) :=
  [("title", USVString t); ("author", USVString a); ("genre", USVString g)].

Definition element0 : Element :=
  {| disabled := true; innerHTML := "old"; display := "old"; open := true;
     children := [createPreview ∅ moby] |}.

Definition fullPage : Document :=
  {| dataListItems := Some element0; dataListButton := Some element0;
     dataSearchOverlay := Some element0; dataListMessage := Some element0;
     searchCancelButton := Some element0; searchButton := Some element0 |}.

Definition pageWithoutList : Document :=
  {| dataListItems := None; dataListButton := Some element0;
     dataSearchOverlay := Some element0; dataListMessage := Some element0;
     searchCancelButton := Some element0; searchButton := Some element0 |}.

Definition world0 (bs : list Book) (p : Z) (d : Document) : World :=
  {| books := bs; authors := {[ "a1" := "Herman Melville" ]};
     BOOKS_PER_PAGE := 2; page := p; document := d; scrollTop := 100;
     console := []; defaultPrevented := false |}.


Definition submit (t a g : string) : Event :=
  {| formData := criteria t a g |}.

Definition onlyAuthorAndGenre : Event :=
  {| formData := [("author", USVString "any"); ("genre", USVString "any")] |}.

Definition noAuthor : Event :=
  {| formData := [("title", USVString empty); ("genre", USVString "any")] |}.

Definition noGenre : Event :=
  {| formData := [("title", USVString empty); ("author", USVString "any")] |}.

(** ** The other listeners of the search module *)

(** Reading [el.open]; a [TypeError] when [el] is [null]. *)
Definition readOpen (sel : Document -> option Element) : M bool :=
  fun w =>
    match sel (document w) with
    | Some e => Return (open e) w
    | None => Throw TypeError w
    end.

(** An [if] without an [else]. *)
Definition skip : M unit := mret tt.

(** [handleSearchCancelButtonClick]: the overlay is looked up and, when it
    is open, closed. The lookup is not guarded. *)
Definition handleSearchCancelButtonClick : M unit :=
  isOpen ← readOpen dataSearchOverlay;
  if (isOpen : bool)
  then assign dataSearchOverlay with_dataSearchOverlay (set_open false)
  else skip.

(** The [toggle] listener that the search module puts on the overlay: when
    the overlay is open, the cancel button is looked up and, if there is
    one, enabled. The listener holds the overlay it was put on, so the
    [TypeError] of [readOpen] is out of reach when it runs. *)
Definition enableCancelOnToggle : M unit :=
  isOpen ← readOpen dataSearchOverlay;
  if (isOpen : bool)
  then whenPresent searchCancelButton with_searchCancelButton
         (set_disabled false)
  else skip.

(** The [toggle] listener of main.js: the same, with the cancel button that
    was found when the listener was made (it is only made when both the
    button and the overlay exist). *)
Definition enableCapturedCancelOnToggle : M unit :=
  isOpen ← readOpen dataSearchOverlay;
  if (isOpen : bool)
  then assign searchCancelButton with_searchCancelButton (set_disabled false)
  else skip.

(** [handleSearchFormSubmit] with the outcome of its loop over the books
    as a parameter: what the handler does before and after the loop. *)
Definition submitAround (loop : Completion (list Book)) : M unit :=
  modify (set_defaultPrevented true);;
  results ← liftCompletion loop;
  updateBookList results;;
  modifyDocument (fun d =>
    match searchCancelButton d, searchButton d with
    | Some c, Some s =>
        with_searchButton (set_disabled false s)
          (with_searchCancelButton (set_disabled false c) d)
    | _, _ => d
    end).

(** ** Listeners and their registration

    The functions that the two modules register as listeners. The two
    exported handlers are one function object each; each of the other three
    stands for the objects a function expression evaluates to, a new one at
    every evaluation. *)
Inductive Listener :=
| SearchFormSubmit   (* handleSearchFormSubmit *)
| SearchCancelClick  (* handleSearchCancelButtonClick *)
| ToggleOfSearch     (* the toggle listener made by the search module *)
| ToggleOfMain       (* the toggle listener made by main.js *)
| OpenOverlay.       (* the click listener made by initializeSearchOverlay *)

#[global] Instance Listener_eq_dec : EqDecision Listener.
Proof. solve_decision. Defined.

(** The page with the elements that carry listeners: the search form with
    its submit listeners, the search button of the header with its click
    listeners, the title input of the search form (does it have the
    focus?), and the click listeners of the cancel button and the toggle
    listeners of the overlay, two elements that [Document] holds. *)
Record Page := {
  world : World;
  dataSearchForm : option (list Listener);    (* [data-search-form] *)
  dataHeaderSearch : option (list Listener);  (* [data-header-search] *)
  dataSearchTitle : option bool;              (* [data-search-title] *)
  cancelListeners : list Listener;
  toggleListeners : list Listener
}.

Definition set_world (w : World) (p : Page) : Page :=
  {| world := w; dataSearchForm := dataSearchForm p;
     dataHeaderSearch := dataHeaderSearch p;
     dataSearchTitle := dataSearchTitle p;
     cancelListeners := cancelListeners p;
     toggleListeners := toggleListeners p |}.

Definition set_dataSearchForm (f : option (list Listener)) (p : Page) : Page :=
  {| world := world p; dataSearchForm := f;
     dataHeaderSearch := dataHeaderSearch p;
     dataSearchTitle := dataSearchTitle p;
     cancelListeners := cancelListeners p;
     toggleListeners := toggleListeners p |}.

Definition set_dataHeaderSearch (h : option (list Listener)) (p : Page)
  : Page :=
  {| world := world p; dataSearchForm := dataSearchForm p;
     dataHeaderSearch := h;
     dataSearchTitle := dataSearchTitle p;
     cancelListeners := cancelListeners p;
     toggleListeners := toggleListeners p |}.

Definition set_dataSearchTitle (t : option bool) (p : Page) : Page :=
  {| world := world p; dataSearchForm := dataSearchForm p;
     dataHeaderSearch := dataHeaderSearch p;
     dataSearchTitle := t;
     cancelListeners := cancelListeners p;
     toggleListeners := toggleListeners p |}.

Definition set_cancelListeners (ls : list Listener) (p : Page) : Page :=
  {| world := world p; dataSearchForm := dataSearchForm p;
     dataHeaderSearch := dataHeaderSearch p;
     dataSearchTitle := dataSearchTitle p;
     cancelListeners := ls;
     toggleListeners := toggleListeners p |}.

Definition set_toggleListeners (ls : list Listener) (p : Page) : Page :=
  {| world := world p; dataSearchForm := dataSearchForm p;
     dataHeaderSearch := dataHeaderSearch p;
     dataSearchTitle := dataSearchTitle p;
     cancelListeners := cancelListeners p;
     toggleListeners := ls |}.

(** [target.addEventListener(type, f)] for a function [f] that may have
    been added before: a listener that is in the list already is not added
    again. *)
Definition addEventListener (f : Listener) (listeners : list Listener)
  : list Listener :=
  if bool_decide (f ∈ listeners) then listeners else listeners ++ [f].

(** [target.addEventListener(type, function () { ... })]: the function is
    new, so no list holds it. *)
Definition addNewListener (f : Listener) (listeners : list Listener)
  : list Listener :=
  listeners ++ [f].

Inductive PageResult (A : Type) :=
| PReturn (a : A) (p : Page)
| PThrow (e : exn) (p : Page).
Arguments PReturn {A} a p.
Arguments PThrow {A} e p.

Definition P (A : Type) : Type := Page -> PageResult A.

#[global] Instance P_ret : MRet P := fun A a p => PReturn a p.

#[global] Instance P_bind : MBind P := fun A B f m p =>
  match m p with
  | PReturn a p' => f a p'
  | PThrow e p' => PThrow e p'
  end.

Definition finalPage {A} (r : PageResult A) : Page :=
  match r with
  | PReturn _ p => p
  | PThrow _ p => p
  end.

(** A computation on the elements of [World], run on the page. *)
Definition onWorld {A} (m : M A) : P A :=
  fun p =>
    match m (world p) with
    | Return a w => PReturn a (set_world w p)
    | Throw e w => PThrow e (set_world w p)
    end.

Definition modifyPage (f : Page -> Page) : P unit :=
  fun p => PReturn tt (f p).

(** [initializeSearchCancelButton] *)
Definition initializeSearchCancelButton : P unit :=
  modifyPage (fun p =>
    match searchCancelButton (document (world p)) with
    | Some _ =>
        set_cancelListeners
          (addEventListener SearchCancelClick (cancelListeners p)) p
    | None => p
    end).

(** [initializeSearchOverlay]: the lookup of the header button is not
    guarded. *)
Definition initializeSearchOverlay : P unit :=
  fun p =>
    match dataHeaderSearch p with
    | Some listeners =>
        PReturn tt
          (set_dataHeaderSearch (Some (addNewListener OpenOverlay listeners))
                                p)
    | None => PThrow TypeError p
    end.

(** The click listener made by [initializeSearchOverlay]:
    [searchOverlay.open = true; searchTitle.focus()], neither guarded. *)
Definition focusSearchTitle : P unit :=
  fun p =>
    match dataSearchTitle p with
    | Some _ => PReturn tt (set_dataSearchTitle (Some true) p)
    | None => PThrow TypeError p
    end.

Definition openSearchOverlay : P unit :=
  onWorld (assign dataSearchOverlay with_dataSearchOverlay (set_open true));;
  focusSearchTitle.

(** The [DOMContentLoaded] listener of the search module that sets up the
    form, the cancel button and the overlay. *)
Definition searchModuleLoaded : P unit :=
  modifyPage (fun p =>
    match dataSearchForm p with
    | Some listeners =>
        set_dataSearchForm
          (Some (addEventListener SearchFormSubmit listeners)) p
    | None => p
    end);;
  initializeSearchCancelButton;;
  modifyPage (fun p =>
    match dataSearchOverlay (document (world p)) with
    | Some _ =>
        set_toggleListeners (addNewListener ToggleOfSearch (toggleListeners p))
                            p
    | None => p
    end).

(** The [DOMContentLoaded] listener of the search module that calls
    [initializeSearchOverlay]. *)
Definition searchOverlayLoaded : P unit := initializeSearchOverlay.

(** The first [DOMContentLoaded] listener of main.js. *)
Definition mainLoaded : P unit :=
  modifyPage (fun p =>
    match dataSearchForm p with
    | Some listeners =>
        set_dataSearchForm
          (Some (addEventListener SearchFormSubmit listeners)) p
    | None => p
    end);;
  modifyPage (fun p =>
    match searchCancelButton (document (world p)),
          dataSearchOverlay (document (world p)) with
    | Some _, Some _ =>
        set_toggleListeners (addNewListener ToggleOfMain (toggleListeners p))
          (set_cancelListeners
             (addEventListener SearchCancelClick (cancelListeners p)) p)
    | _, _ => p
    end);;
  initializeSearchCancelButton;;
  initializeSearchOverlay.

(** What a listener does when it is called with an event. *)
Definition call (f : Listener) (event : Event) : P unit :=
  match f with
  | SearchFormSubmit => onWorld (handleSearchFormSubmit event)
  | SearchCancelClick => onWorld handleSearchCancelButtonClick
  | ToggleOfSearch => onWorld enableCancelOnToggle
  | ToggleOfMain => onWorld enableCapturedCancelOnToggle
  | OpenOverlay => openSearchOverlay
  end.

(** The listeners of a target are called in the order in which they were
    added; an exception thrown by one of them is reported and does not keep
    the next one from running. *)
Fixpoint dispatch (listeners : list Listener) (event : Event) (p : Page)
  : Page :=
  match listeners with
  | [] => p
  | f :: rest => dispatch rest event (finalPage (call f event p))
  end.

(** The three listeners of [DOMContentLoaded] above, those of the search
    module first: it is loaded before the body of main.js runs. *)
Definition domContentLoaded (p : Page) : Page :=
  finalPage (mainLoaded
    (finalPage (searchOverlayLoaded
      (finalPage (searchModuleLoaded p))))).

(** An event without form data, for clicks and toggles. *)
Definition plainEvent : Event := {| formData := [] |}.

Definition submitEvent (event : Event) (p : Page) : Page :=
  match dataSearchForm p with
  | Some listeners => dispatch listeners event p
  | None => p
  end.

Definition headerSearchClick (p : Page) : Page :=
  match dataHeaderSearch p with
  | Some listeners => dispatch listeners plainEvent p
  | None => p
  end.

Definition cancelClick (p : Page) : Page :=
  match searchCancelButton (document (world p)) with
  | Some _ => dispatch (cancelListeners p) plainEvent p
  | None => p
  end.

Definition overlayToggle (p : Page) : Page :=
  match dataSearchOverlay (document (world p)) with
  | Some _ => dispatch (toggleListeners p) plainEvent p
  | None => p
  end.

(** ** Sample data for the listeners *)

Definition closedOverlay : Element :=
  {| disabled := true; innerHTML := "old"; display := "old"; open := false;
     children := [] |}.

Definition pageWithoutOverlay : Document :=
  {| dataListItems := Some element0; dataListButton := Some element0;
     dataSearchOverlay := None; dataListMessage := Some element0;
     searchCancelButton := Some element0; searchButton := Some element0 |}.



Definition pageClosedOverlay : Document :=
  {| dataListItems := Some element0; dataListButton := Some element0;
     dataSearchOverlay := Some closedOverlay;
     dataListMessage := Some element0;
     searchCancelButton := Some element0; searchButton := Some element0 |}.

(** A page on which nothing has been registered yet. *)
Definition freshPage (w : World) (form header title : bool) : Page :=
  {| world := w;
     dataSearchForm := if form then Some [] else None;
     dataHeaderSearch := if header then Some [] else None;
     dataSearchTitle := if title then Some false else None;
     cancelListeners := [];
     toggleListeners := [] |}.

(** ** The behaviour the specification describes

    Definitions that follow the wording of the specification, to compare
    the code with. *)

Module Spec.

(** Title: the query is empty or is a case-insensitive substring of the
    title. *)
Definition titleMatches (query : string) (book : Book) : bool :=
  String.eqb query empty
  || includes (toLowerCase (title book)) (toLowerCase query).

(** Author: the sentinel [any], or equal to the author id of the book. *)
Definition authorMatches (authorId : string) (book : Book) : bool :=
  String.eqb authorId "any" || String.eqb authorId (author book).

(** Genre: the sentinel [any], or contained in the genre list. *)
Definition genreMatches (genreId : string) (book : Book) : bool :=
  String.eqb genreId "any" || existsb (String.eqb genreId) (genres book).

(** The records for which all three predicates hold, in catalogue
    order. *)
Definition filterCatalog (catalog : list Book) (query authorId genreId : string)
  : list Book :=
  List.filter
    (fun book => titleMatches query book && authorMatches authorId book
                 && genreMatches genreId book)
    catalog.

(** [max(0, resultSetLength - pageIndex*pageSize)] *)
Definition computeRemaining (resultSetLength pageIndex pageSize : Z) : Z :=
  Z.max 0 (resultSetLength - pageIndex * pageSize).

(** [resultSet[0 .. currentPageIndex*pageSize)] *)
Definition pageSlice (resultSet : list Book) (pageIndex pageSize : Z)
  : list Book :=
  take (Z.to_nat (pageIndex * pageSize)) resultSet.


End Spec.

(** * Properties *)

(** ** The filter loop *)

Section SearchLoop.

Variable filters : gmap string FormDataEntryValue.

Lemma titleMatch_string (t : string) (book : Book) :
  getProperty filters "title" = Str t ->
  titleMatch filters book =
  Normal (String.eqb (trim t) empty
          || includes (toLowerCase (title book)) (toLowerCase t)).
Proof. intros Ht. unfold titleMatch. now rewrite Ht. Qed.

Lemma titleMatch_not_string (book : Book) :
  (forall t, getProperty filters "title" <> Str t) ->
  titleMatch filters book = Abrupt TypeError.
Proof.
  intros Ht. unfold titleMatch.
  destruct (getProperty filters "title") as [|t|]; try reflexivity.
  now destruct (Ht t).
Qed.

(** With a string for a title the loop runs to its end and is a filter
    that appends to the accumulator. *)
Lemma searchLoop_filter (t : string) (catalog results : list Book) :
  getProperty filters "title" = Str t ->
  searchLoop filters catalog results =
  Normal (results ++ List.filter (keeps filters t) catalog).
Proof.
  intros Ht. revert results.
  induction catalog as [|book rest IH]; intros results; simpl.
  - now rewrite app_nil_r.
  - rewrite (titleMatch_string t book Ht). unfold keeps at 1.
    destruct (_ && _ && _); rewrite IH; [|reflexivity].
    now rewrite <- app_assoc.
Qed.

(** Without one the first iteration throws; an empty catalogue has no
    first iteration. *)
Lemma searchLoop_not_string (book : Book) (rest results : list Book) :
  (forall t, getProperty filters "title" <> Str t) ->
  searchLoop filters (book :: rest) results = Abrupt TypeError.
Proof. intros Ht. simpl. now rewrite titleMatch_not_string. Qed.

Lemma authorMatch_string (a : string) (book : Book) :
  getProperty filters "author" = Str a ->
  authorMatch filters book = Spec.authorMatches a book.
Proof. intros Ha. unfold authorMatch. now rewrite Ha. Qed.

Lemma genreMatch_string (g : string) (book : Book) :
  getProperty filters "genre" = Str g ->
  genreMatch filters book = Spec.genreMatches g book.
Proof. intros Hg. unfold genreMatch, arrayIncludes. now rewrite Hg. Qed.

Lemma authorMatch_not_string (book : Book) :
  (forall a, getProperty filters "author" <> Str a) ->
  authorMatch filters book = false.
Proof.
  intros Ha. unfold authorMatch.
  destruct (getProperty filters "author") as [|a|]; try reflexivity.
  now destruct (Ha a).
Qed.

Lemma genreMatch_not_string (book : Book) :
  (forall g, getProperty filters "genre" <> Str g) ->
  genreMatch filters book = false.
Proof.
  intros Hg. unfold genreMatch, arrayIncludes.
  destruct (getProperty filters "genre") as [|g|]; simpl.
  - now induction (genres book).
  - now destruct (Hg g).
  - now induction (genres book).
Qed.

End SearchLoop.

Lemma filter_ext_bool {A} (p q : A -> bool) (l : list A) :
  (forall x, p x = q x) -> List.filter p l = List.filter q l.
Proof.
  intros Hpq. induction l as [|x l IH]; simpl; [reflexivity|].
  now rewrite Hpq, IH.
Qed.

Lemma filter_none {A} (p : A -> bool) (l : list A) :
  (forall x, p x = false) -> List.filter p l = [].
Proof.
  intros Hp. induction l as [|x l IH]; simpl; [reflexivity|].
  now rewrite Hp.
Qed.

Lemma filter_sublist_bool {A} (p : A -> bool) (l : list A) :
  sublist (List.filter p l) l.
Proof.
  induction l as [|x l IH]; simpl.
  - constructor.
  - destruct (p x); now constructor.
Qed.

(** ** The result set of a submission *)

(** Where trimming plays no part the loop is the filter of the
    specification. For a submission whose three fields are strings and
    whose title query is blank or carries no white space at either end, the
    result set is, in catalogue order, exactly the books for which the three
    predicates hold: the trimmed query is empty or is a case-insensitive
    substring of the title, the author is [any] or the author id of the
    book, the genre is [any] or is in the genre list of the book. *)
Lemma search_results_filter (event : Event) (w : World) (t a g : string) :
  getProperty (fromEntries (formData event)) "title" = Str t ->
  getProperty (fromEntries (formData event)) "author" = Str a ->
  getProperty (fromEntries (formData event)) "genre" = Str g ->
  trim t = empty \/ trim t = t ->
  searchResults event w = Normal (Spec.filterCatalog (books w) (trim t) a g).
Proof.
  intros Ht Ha Hg Htrim. unfold searchResults.
  rewrite (searchLoop_filter _ t _ _ Ht). simpl. f_equal.
  apply filter_ext_bool. intros book. unfold keeps, Spec.titleMatches.
  rewrite (authorMatch_string _ a book Ha), (genreMatch_string _ g book Hg).
  destruct Htrim as [Hblank | Hclean].
  - now rewrite Hblank.
  - now rewrite !Hclean.
Qed.

Lemma search_results_filter_witness :
  searchResults (submit "war" "any" "any") (world0 [moby; war] 1 fullPage)
  = Normal [war].
Proof.
  exact (search_results_filter (submit "war" "any" "any")
           (world0 [moby; war] 1 fullPage) "war" "any" "any"
           eq_refl eq_refl eq_refl (or_intror eq_refl)).
Defined.

(** A blank query such as one space is read as the empty query, by the
    specification and by the code alike. *)
Lemma blank_query_agrees :
  searchResults (submit " " "any" "any") (world0 [moby; war] 1 fullPage)
  = Normal (Spec.filterCatalog [moby; war] (trim " ") "any" "any").
Proof. vm_compute. reflexivity. Qed.

(** C1. The result set is not always the set of books for which the three
    predicates hold. For the query [ war] with [any] for author and genre,
    the trimmed query is a case-insensitive substring of the title
    [War and Peace], so that the three predicates hold for that book and
    the filter of the specification selects it; the loop, which searches
    for the query as typed, selects nothing. *)
Theorem trimmed_match_not_selected :
  let w := world0 [moby; war] 1 fullPage in
  Spec.titleMatches (trim " war") war = true
  /\ Spec.authorMatches "any" war = true
  /\ Spec.genreMatches "any" war = true
  /\ Spec.filterCatalog (books w) (trim " war") "any" "any" = [war]
  /\ searchResults (submit " war" "any" "any") w = Normal [].
Proof. cbv zeta. repeat apply conj; vm_compute; reflexivity. Qed.

(** C5. The handler trims the title query for the emptiness test only; the
    substring test takes the query as typed. A blank query matches every
    book, but the query [ war], which trims to [war], finds nothing in a
    catalogue where [war] finds a book. *)
Theorem untrimmed_query_misses :
  trim " war" = "war"
  /\ searchResults (submit "war" "any" "any") (world0 [moby; war] 1 fullPage)
     = Normal [war]
  /\ searchResults (submit " war" "any" "any") (world0 [moby; war] 1 fullPage)
     = Normal [].
Proof. repeat split; vm_compute; reflexivity. Qed.

(** The part of C5 that the code does keep: a blank query selects on author
    and genre alone. *)
Lemma blank_query_matches_all (filters : gmap string FormDataEntryValue)
    (t : string) (book : Book) :
  getProperty filters "title" = Str t ->
  trim t = empty ->
  titleMatch filters book = Normal true.
Proof.
  intros Ht Hblank. rewrite (titleMatch_string _ t book Ht).
  now rewrite Hblank.
Qed.

(** C6 (as amended). The loop finishes whenever the title field is a
    string. A title field that is absent or a file makes the first iteration
    throw a [TypeError]; an author or genre field that is absent or a file
    is not read as [any]: it matches no book. *)
Theorem criteria_fields_strict (event : Event) (w : World) :
  let filters := fromEntries (formData event) in
  (forall t, getProperty filters "title" = Str t ->
             exists results, searchResults event w = Normal results)
  /\ ((forall t, getProperty filters "title" <> Str t) ->
      books w <> [] -> searchResults event w = Abrupt TypeError)
  /\ (forall t, getProperty filters "title" = Str t ->
                (forall a, getProperty filters "author" <> Str a) ->
                searchResults event w = Normal [])
  /\ (forall t, getProperty filters "title" = Str t ->
                (forall g, getProperty filters "genre" <> Str g) ->
                searchResults event w = Normal []).
Proof.
  intros filters. unfold searchResults. fold filters. repeat split.
  - intros t Ht. rewrite (searchLoop_filter _ t _ _ Ht). eauto.
  - intros Ht Hbooks. destruct (books w) as [|book rest]; [easy|].
    now apply searchLoop_not_string.
  - intros t Ht Ha. rewrite (searchLoop_filter _ t _ _ Ht). simpl. f_equal.
    apply filter_none. intros book. unfold keeps.
    rewrite (authorMatch_not_string _ book Ha). now rewrite andb_false_r.
  - intros t Ht Hg. rewrite (searchLoop_filter _ t _ _ Ht). simpl. f_equal.
    apply filter_none. intros book. unfold keeps.
    rewrite (genreMatch_not_string _ book Hg). now rewrite andb_false_r.
Qed.

Lemma criteria_fields_strict_witness :
  searchResults onlyAuthorAndGenre (world0 [moby] 1 fullPage)
  = Abrupt TypeError
  /\ searchResults noAuthor (world0 [moby] 1 fullPage) = Normal []
  /\ searchResults noGenre (world0 [moby] 1 fullPage) = Normal [].
Proof.
  split; [|split].
  - apply (proj1 (proj2 (criteria_fields_strict onlyAuthorAndGenre
                           (world0 [moby] 1 fullPage)))).
    + intros t H. vm_compute in H. discriminate H.
    + discriminate.
  - apply (proj1 (proj2 (proj2 (criteria_fields_strict noAuthor
                                  (world0 [moby] 1 fullPage)))) empty).
    + reflexivity.
    + intros a H. vm_compute in H. discriminate H.
  - apply (proj2 (proj2 (proj2 (criteria_fields_strict noGenre
                                  (world0 [moby] 1 fullPage)))) empty).
    + reflexivity.
    + intros g H. vm_compute in H. discriminate H.
Defined.

(** Without a title field the submission ends in a [TypeError]; without an
    author field no book is selected, although title and genre match every
    book. *)
Lemma absent_field_counterexample :
  throws (handleSearchFormSubmit onlyAuthorAndGenre
            (world0 [moby] 1 fullPage)) = true
  /\ searchResults noAuthor (world0 [moby] 1 fullPage) = Normal []
  /\ searchResults (submit empty "any" "any") (world0 [moby] 1 fullPage)
     = Normal [moby].
Proof. repeat split; vm_compute; reflexivity. Qed.

(** ** What a computation leaves alone *)

Lemma sameData_refl (w : World) : sameData w w.
Proof. now split. Qed.

Lemma sameData_trans (w1 w2 w3 : World) :
  sameData w1 w2 -> sameData w2 w3 -> sameData w1 w3.
Proof. intros [] []. split; congruence. Qed.

Section Framing.

Context {A B : Type}.

Lemma framed_ret (a : A) : framed (mret a : M A).
Proof. intros w. apply sameData_refl. Qed.

Lemma framed_throw (e : exn) : framed (throw e : M A).
Proof. intros w. apply sameData_refl. Qed.

Lemma framed_bind (m : M A) (f : A -> M B) :
  framed m -> (forall a, framed (f a)) -> framed (m ≫= f).
Proof.
  intros Hm Hf w. specialize (Hm w). unfold mbind, M_bind.
  destruct (m w) as [a w'|e w']; simpl in *; [|assumption].
  eapply sameData_trans; [exact Hm | apply Hf].
Qed.

Lemma framed_liftCompletion (c : Completion A) : framed (liftCompletion c).
Proof. destruct c; [apply framed_ret | apply framed_throw]. Qed.

End Framing.

Lemma framed_get : framed get.
Proof. intros w. apply sameData_refl. Qed.

Lemma framed_modify (f : World -> World) :
  (forall w, sameData w (f w)) -> framed (modify f).
Proof. intros Hf w. apply Hf. Qed.

Lemma framed_modifyDocument (f : Document -> Document) :
  framed (modifyDocument f).
Proof. apply framed_modify. intros w. now split. Qed.

Lemma framed_whenPresent sel upd f : framed (whenPresent sel upd f).
Proof. apply framed_modifyDocument. Qed.

Lemma framed_assign sel upd f : framed (assign sel upd f).
Proof.
  intros w. unfold assign. destruct (sel (document w)); now split.
Qed.

Create HintDb frame.
#[global] Hint Resolve framed_ret framed_throw framed_liftCompletion framed_get
  framed_modifyDocument framed_whenPresent framed_assign : frame.

Ltac frame_step :=
  first [ apply framed_bind; [|intros ?]
        | apply framed_modify; intros ?; now split
        | solve [auto with frame] ].


Lemma framed_handleSearchFormSubmit (event : Event) :
  framed (handleSearchFormSubmit event).
Proof.
  unfold handleSearchFormSubmit. repeat frame_step.
Qed.

(** ** The list update *)

Ltac run :=
  unfold updateBookList, whenPresent, assign, modifyDocument, modify, get,
    mbind, M_bind; simpl.

Ltac open_world w :=
  let d := fresh "d" in
  destruct w as [? ? ? ? d ? ? ?];
  destruct d as [[?|] [?|] [?|] [?|] ? ?]; simpl in *.



(** C3. The remaining count is [max(0, length - page * BOOKS_PER_PAGE)] for
    all integers; a difference that is not positive gives 0. *)
Theorem remaining_is_clamped_difference (len p per : Z) :
  remaining len p per = Spec.computeRemaining len p per
  /\ 0 <= remaining len p per.
Proof.
  unfold remaining, hasRemaining, remainingBooks, Spec.computeRemaining.
  destruct (Z.ltb_spec 0 (len - p * per)); lia.
Qed.

(** C4. The update empties the list container, but then appends a preview
    for every result: with three results, page 1 and two books per page,
    three previews are shown, not the two of the first page, while the
    button announces one remaining book. *)
Theorem renders_beyond_first_page :
  let w := world0 [moby; war; emma] 1 fullPage in
  let w' := finalWorld (updateBookList [moby; war; emma] w) in
  rendered w = [createPreview ∅ moby]
  /\ rendered w' = map (createPreview (authors w)) [moby; war; emma]
  /\ Spec.pageSlice [moby; war; emma] (page w) (BOOKS_PER_PAGE w) = [moby; war]
  /\ remaining 3 (page w) (BOOKS_PER_PAGE w) = 1.
Proof. cbv zeta. split; [|split; [|split]]; vm_compute; reflexivity. Qed.

(** C7. The button, the message and the overlay are guarded, the list
    container is not: without it the update throws a [TypeError], and what
    comes after the list (message, scrolling, closing the overlay) is not
    done either. *)
Theorem missing_list_container_throws (results : list Book) (w : World) :
  dataListItems (document w) = None ->
  exists w', updateBookList results w = Throw TypeError w'
             /\ dataListMessage (document w') = dataListMessage (document w)
             /\ dataSearchOverlay (document w')
                = dataSearchOverlay (document w)
             /\ scrollTop w' = scrollTop w.
Proof.
  intros Hitems. open_world w; try discriminate; run; eauto.
Qed.

Lemma missing_list_container_throws_witness :
  exists w',
    updateBookList [moby] (world0 [moby] 1 pageWithoutList) = Throw TypeError w'
    /\ dataListMessage (document w') = Some element0
    /\ dataSearchOverlay (document w') = Some element0
    /\ scrollTop w' = 100.
Proof.
  exact (missing_list_container_throws [moby] (world0 [moby] 1 pageWithoutList)
           eq_refl).
Defined.









(** An author id that is the name of an inherited property is not in the
    table either, but its book is rendered with the text of what is
    inherited, not with [undefined]. *)
Lemma inherited_author_rendered (w : World) (book : Book) (text : string) :
  authors w !! author book = None ->
  inheritedText (author book) = Some text ->
  createPreview (authors w) book
  = {| classList := ["preview"]; dataPreview := id book;
       previewHTML := previewTemplate (image book) (title book) text |}.
Proof.
  intros Hmissing Hinherited. unfold createPreview, authorText.
  now rewrite Hmissing, Hinherited.
Qed.

Lemma inherited_author_rendered_constructor :
  authorText {[ "a1" := "Herman Melville" ]} "constructor"
  = "function Object() { [native code] }"
  /\ authorText {[ "a1" := "Herman Melville" ]} "__proto__"
     = "[object Object]"
  /\ authorText {[ "a1" := "Herman Melville" ]} "a2" = "undefined".
Proof. repeat apply conj; vm_compute; reflexivity. Qed.


(** ** The submission as a whole *)

(** C2 (as amended). A search submission leaves the page counter as it
    finds it, whether it ends normally or in an exception: the counter is
    read for the remaining count and never written, so it is neither reset
    nor decremented. *)
Theorem submit_keeps_page (event : Event) (w : World) :
  page (finalWorld (handleSearchFormSubmit event w)) = page w.
Proof. apply framed_handleSearchFormSubmit. Qed.

(** After a submission on page 3 the counter is still 3. *)
Lemma submit_keeps_page_counterexample :
  page (finalWorld (handleSearchFormSubmit (submit "war" "any" "any")
                      (world0 [moby; war] 3 fullPage))) <> 1.
Proof. vm_compute. discriminate. Qed.

Lemma resultsArray_sublist (event : Event) (w : World) :
  sublist (resultsArray event w) (books w).
Proof.
  unfold resultsArray, searchResults.
  destruct (getProperty (fromEntries (formData event)) "title") as [|t|] eqn:Ht.
  - destruct (books w) as [|book rest]; simpl; [constructor|].
    rewrite titleMatch_not_string by congruence. apply sublist_nil_l.
  - rewrite (searchLoop_filter _ t _ _ Ht). apply filter_sublist_bool.
  - destruct (books w) as [|book rest]; simpl; [constructor|].
    rewrite titleMatch_not_string by congruence. apply sublist_nil_l.
Qed.

(** C10. A submission changes neither the list of books (so no record of
    it) nor the author table, and the array of results is a subsequence of
    the list of books: each of its elements is a book of the catalogue. *)
Theorem catalogue_untouched (event : Event) (w : World) :
  let w' := finalWorld (handleSearchFormSubmit event w) in
  books w' = books w
  /\ authors w' = authors w
  /\ sublist (resultsArray event w) (books w)
  /\ resultsArray event w ⊆ books w.
Proof.
  cbv zeta. split; [apply framed_handleSearchFormSubmit|].
  split; [apply framed_handleSearchFormSubmit|].
  split; [apply resultsArray_sublist|].
  apply sublist_subseteq, resultsArray_sublist.
Qed.

(** With a string for a title and a list container on the page, the
    submission runs to its end and the list shows the previews of the
    result set. *)
Lemma handleSearchFormSubmit_returns (event : Event) (w : World) (t : string)
    (items : Element) :
  getProperty (fromEntries (formData event)) "title" = Str t ->
  dataListItems (document w) = Some items ->
  exists w', handleSearchFormSubmit event w = Return tt w'
    /\ rendered w' = map (createPreview (authors w)) (resultsArray event w)
    /\ defaultPrevented w' = true.
Proof.
  intros Ht Hitems. unfold resultsArray, handleSearchFormSubmit, searchResults.
  unfold mbind at 1 2 3 4, M_bind, modify at 1, get. simpl.
  rewrite (searchLoop_filter _ t _ _ Ht). simpl.
  set (results := List.filter _ _).
  destruct w as [bs au per pg [[li|] [lb|] [so|] [lm|] [sc|] [sb|]] st co dp];
    simpl in *; try discriminate; run; eexists; repeat split.
Qed.

(** * Further properties of the search module *)

(** ** Strings *)

Lemma startsWith_refl (s : string) : startsWith s s = true.
Proof.
  induction s as [|c s IH]; simpl; [reflexivity|].
  now rewrite Ascii.eqb_refl.
Qed.

Lemma includes_refl (s : string) : includes s s = true.
Proof. destruct s; simpl; [reflexivity|]. now rewrite Ascii.eqb_refl, startsWith_refl. Qed.

Lemma isWhiteSpace_toLowerCase_char (c : ascii) :
  isWhiteSpace (toLowerCase_char c) = isWhiteSpace c.
Proof. destruct c as [[] [] [] [] [] [] [] []]; reflexivity. Qed.

Lemma trimStart_toLowerCase (s : string) :
  trimStart (toLowerCase s) = toLowerCase (trimStart s).
Proof.
  induction s as [|c s IH]; simpl; [reflexivity|].
  rewrite isWhiteSpace_toLowerCase_char. now destruct (isWhiteSpace c).
Qed.

Lemma trimEnd_toLowerCase (s : string) :
  trimEnd (toLowerCase s) = toLowerCase (trimEnd s).
Proof.
  induction s as [|c s IH]; simpl; [reflexivity|].
  rewrite IH, isWhiteSpace_toLowerCase_char.
  destruct (trimEnd s); simpl; [|reflexivity].
  now destruct (isWhiteSpace c).
Qed.

Lemma trim_toLowerCase (s : string) :
  trim (toLowerCase s) = toLowerCase (trim s).
Proof. unfold trim. now rewrite trimStart_toLowerCase, trimEnd_toLowerCase. Qed.

Lemma eqb_empty_toLowerCase (s : string) :
  String.eqb (toLowerCase s) empty = String.eqb s empty.
Proof. now destruct s. Qed.

(** Whether a query is blank depends on its lower-case form only. *)
Lemma blank_toLowerCase (t1 t2 : string) :
  toLowerCase t1 = toLowerCase t2 ->
  String.eqb (trim t1) empty = String.eqb (trim t2) empty.
Proof.
  intros H. rewrite <- (eqb_empty_toLowerCase (trim t1)).
  rewrite <- (eqb_empty_toLowerCase (trim t2)).
  now rewrite <- !trim_toLowerCase, H.
Qed.

(** ** Lists *)

Lemma filter_all {A} (p : A -> bool) (l : list A) :
  (forall x, x ∈ l -> p x = true) -> List.filter p l = l.
Proof.
  induction l as [|x l IH]; intros Hp; simpl; [reflexivity|].
  rewrite (Hp x) by left. f_equal. apply IH. intros y Hy. apply Hp. now right.
Qed.

Lemma filter_nothing {A} (p : A -> bool) (l : list A) :
  (forall x, x ∈ l -> p x = false) -> List.filter p l = [].
Proof.
  induction l as [|x l IH]; intros Hp; simpl; [reflexivity|].
  rewrite (Hp x) by left. apply IH. intros y Hy. apply Hp. now right.
Qed.

Lemma filter_sublist_mono {A} (p q : A -> bool) (l : list A) :
  (forall x, p x = true -> q x = true) ->
  sublist (List.filter p l) (List.filter q l).
Proof.
  intros Hpq. induction l as [|x l IH]; simpl; [constructor|].
  destruct (p x) eqn:Hp.
  - rewrite (Hpq x Hp). now constructor.
  - destruct (q x); [now constructor|assumption].
Qed.

Lemma elem_of_filter_bool {A} (p : A -> bool) (l : list A) (x : A) :
  x ∈ List.filter p l <-> x ∈ l /\ p x = true.
Proof. rewrite !list_elem_of_In. apply filter_In. Qed.

(** What the loop gives for a string title, as a list. *)
Lemma resultsArray_filter (event : Event) (w : World) (t : string) :
  getProperty (fromEntries (formData event)) "title" = Str t ->
  searchResults event w
  = Normal (List.filter (keeps (fromEntries (formData event)) t) (books w))
  /\ resultsArray event w
     = List.filter (keeps (fromEntries (formData event)) t) (books w).
Proof.
  intros Ht. unfold resultsArray, searchResults.
  now rewrite (searchLoop_filter _ t _ _ Ht).
Qed.

(** ** More on the result set *)

(** X1. With a blank title and [any] for author and genre the result set is
    the whole catalogue, in its order. *)
Theorem blank_any_any_selects_all (event : Event) (w : World) (t : string) :
  getProperty (fromEntries (formData event)) "title" = Str t ->
  trim t = empty ->
  getProperty (fromEntries (formData event)) "author" = Str "any" ->
  getProperty (fromEntries (formData event)) "genre" = Str "any" ->
  searchResults event w = Normal (books w).
Proof.
  intros Ht Hblank Ha Hg.
  rewrite (proj1 (resultsArray_filter event w t Ht)). f_equal.
  apply filter_all. intros book _. unfold keeps, authorMatch, genreMatch.
  now rewrite Hblank, Ha, Hg.
Qed.

Lemma blank_any_any_selects_all_witness :
  searchResults (submit "  " "any" "any") (world0 [moby; war; emma] 1 fullPage)
  = Normal [moby; war; emma].
Proof.
  exact (blank_any_any_selects_all (submit "  " "any" "any")
           (world0 [moby; war; emma] 1 fullPage) "  "
           eq_refl eq_refl eq_refl eq_refl).
Defined.

(** X2. Choosing an author or a genre only removes books: the result set
    of a submission is a subsequence of the result set of the submission
    with the same title and [any] for author and genre. *)
Theorem author_genre_only_narrow (event eventAny : Event) (w : World)
    (t : string) :
  getProperty (fromEntries (formData event)) "title" = Str t ->
  getProperty (fromEntries (formData eventAny)) "title" = Str t ->
  getProperty (fromEntries (formData eventAny)) "author" = Str "any" ->
  getProperty (fromEntries (formData eventAny)) "genre" = Str "any" ->
  sublist (resultsArray event w) (resultsArray eventAny w).
Proof.
  intros Ht Ht' Ha Hg.
  rewrite (proj2 (resultsArray_filter event w t Ht)).
  rewrite (proj2 (resultsArray_filter eventAny w t Ht')).
  apply filter_sublist_mono. intros book. unfold keeps, authorMatch, genreMatch.
  rewrite Ha, Hg. simpl. rewrite !andb_true_r.
  intros H. now apply andb_prop in H as [H%andb_prop _].
Qed.

Lemma author_genre_only_narrow_witness :
  sublist (resultsArray (submit "a" "a2" "g2") (world0 [moby; war; emma] 1 fullPage))
          (resultsArray (submit "a" "any" "any") (world0 [moby; war; emma] 1 fullPage)).
Proof.
  exact (author_genre_only_narrow (submit "a" "a2" "g2") (submit "a" "any" "any")
           (world0 [moby; war; emma] 1 fullPage) "a"
           eq_refl eq_refl eq_refl eq_refl).
Defined.

(** X3. An author id that is not [any] and that no book of the catalogue
    carries selects nothing, whatever the title and the genre. *)
Theorem unknown_author_selects_nothing (event : Event) (w : World)
    (t a : string) :
  getProperty (fromEntries (formData event)) "title" = Str t ->
  getProperty (fromEntries (formData event)) "author" = Str a ->
  a <> "any" ->
  (forall book, book ∈ books w -> author book <> a) ->
  searchResults event w = Normal [].
Proof.
  intros Ht Ha Hany Hunknown.
  rewrite (proj1 (resultsArray_filter event w t Ht)). f_equal.
  apply filter_nothing. intros book Hbook. unfold keeps, authorMatch.
  rewrite Ha. simpl.
  destruct (String.eqb_spec a "any") as [|_]; [contradiction|].
  destruct (String.eqb_spec a (author book)) as [Heq|_].
  - now destruct (Hunknown book Hbook).
  - simpl. now rewrite andb_false_r.
Qed.

Lemma unknown_author_selects_nothing_witness :
  searchResults (submit empty "a9999" "any") (world0 [moby; war] 1 fullPage)
  = Normal [].
Proof.
  apply (unknown_author_selects_nothing _ _ empty "a9999");
    [reflexivity | reflexivity | discriminate |].
  intros book Hbook. apply list_elem_of_In in Hbook.
  destruct Hbook as [<-|[<-|[]]]; discriminate.
Defined.

(** X4. Every book of the result set is a book of the catalogue that has
    the requested author, unless the author is [any], and the requested
    genre among its genres, unless the genre is [any]; this holds for every
    title query. *)
Theorem results_have_author_and_genre (event : Event) (w : World)
    (t a g : string) (book : Book) :
  getProperty (fromEntries (formData event)) "title" = Str t ->
  getProperty (fromEntries (formData event)) "author" = Str a ->
  getProperty (fromEntries (formData event)) "genre" = Str g ->
  book ∈ resultsArray event w ->
  book ∈ books w
  /\ (a = "any" \/ author book = a)
  /\ (g = "any" \/ g ∈ genres book).
Proof.
  intros Ht Ha Hg.
  rewrite (proj2 (resultsArray_filter event w t Ht)).
  rewrite elem_of_filter_bool. intros [Hin Hkeeps]. split; [exact Hin|].
  unfold keeps in Hkeeps.
  apply andb_prop in Hkeeps as [[_ Hauthor]%andb_prop Hgenre].
  rewrite (authorMatch_string _ a book Ha) in Hauthor.
  rewrite (genreMatch_string _ g book Hg) in Hgenre.
  unfold Spec.authorMatches in Hauthor. unfold Spec.genreMatches in Hgenre.
  apply orb_prop in Hauthor. apply orb_prop in Hgenre. split.
  - destruct Hauthor as [H|H]; apply String.eqb_eq in H; auto.
  - destruct Hgenre as [H|H]; [apply String.eqb_eq in H; auto|].
    right. apply existsb_exists in H as (x & Hx & Heq).
    apply String.eqb_eq in Heq. subst x. now apply list_elem_of_In.
Qed.

Lemma results_have_author_and_genre_witness :
  war ∈ books (world0 [moby; war; emma] 1 fullPage)
  /\ ("a2" = "any" \/ author war = "a2")
  /\ ("g2" = "any" \/ "g2" ∈ genres war).
Proof.
  apply (results_have_author_and_genre (submit empty "a2" "g2")
           (world0 [moby; war; emma] 1 fullPage) empty "a2" "g2" war);
    try reflexivity.
  apply list_elem_of_In. vm_compute. now left.
Defined.

(** X5. A book of the catalogue is found under its own title, typed in any
    letter case, when author and genre are [any]. *)
Theorem own_title_finds_book (event : Event) (w : World) (t : string)
    (book : Book) :
  getProperty (fromEntries (formData event)) "title" = Str t ->
  getProperty (fromEntries (formData event)) "author" = Str "any" ->
  getProperty (fromEntries (formData event)) "genre" = Str "any" ->
  toLowerCase t = toLowerCase (title book) ->
  book ∈ books w ->
  book ∈ resultsArray event w.
Proof.
  intros Ht Ha Hg Hcase Hin.
  rewrite (proj2 (resultsArray_filter event w t Ht)).
  apply elem_of_filter_bool. split; [exact Hin|].
  unfold keeps, authorMatch, genreMatch.
  rewrite Ha, Hg, Hcase, includes_refl. simpl. now rewrite orb_true_r.
Qed.

Lemma own_title_finds_book_witness :
  war ∈ resultsArray (submit "WAR AND peace" "any" "any")
          (world0 [moby; war; emma] 1 fullPage).
Proof.
  apply (own_title_finds_book _ _ "WAR AND peace" war); try reflexivity.
  apply list_elem_of_In. right. now left.
Defined.

(** X6. The letter case of the title query does not matter: two
    submissions whose title queries have the same lower-case form and whose
    author and genre fields agree have the same result set. *)
Theorem query_case_insensitive (event1 event2 : Event) (w : World)
    (t1 t2 : string) :
  getProperty (fromEntries (formData event1)) "title" = Str t1 ->
  getProperty (fromEntries (formData event2)) "title" = Str t2 ->
  toLowerCase t1 = toLowerCase t2 ->
  getProperty (fromEntries (formData event1)) "author"
  = getProperty (fromEntries (formData event2)) "author" ->
  getProperty (fromEntries (formData event1)) "genre"
  = getProperty (fromEntries (formData event2)) "genre" ->
  searchResults event1 w = searchResults event2 w.
Proof.
  intros Ht1 Ht2 Hcase Ha Hg.
  rewrite (proj1 (resultsArray_filter event1 w t1 Ht1)).
  rewrite (proj1 (resultsArray_filter event2 w t2 Ht2)). f_equal.
  apply filter_ext_bool. intros book. unfold keeps, authorMatch, genreMatch.
  now rewrite Ha, Hg, Hcase, (blank_toLowerCase t1 t2 Hcase).
Qed.

Lemma query_case_insensitive_witness :
  searchResults (submit "MOBY" "any" "g1") (world0 [moby; war; emma] 1 fullPage)
  = searchResults (submit "moby" "any" "g1") (world0 [moby; war; emma] 1 fullPage).
Proof.
  exact (query_case_insensitive (submit "MOBY" "any" "g1")
           (submit "moby" "any" "g1") (world0 [moby; war; emma] 1 fullPage)
           "MOBY" "moby" eq_refl eq_refl eq_refl eq_refl eq_refl).
Defined.

(** ** More on the list update and the submission *)

Ltac exec :=
  unfold handleSearchFormSubmit, searchResults, updateBookList,
    handleSearchCancelButtonClick, enableCancelOnToggle,
    enableCapturedCancelOnToggle, readOpen, skip, liftCompletion, whenPresent,
    assign, modifyDocument, modify, get, throw, mbind, M_bind, mret, M_ret;
  simpl.

Ltac open_page w :=
  let d := fresh "d" in
  destruct w as [? ? ? ? d ? ? ?];
  destruct d as [[?|] [?|] [?|] [?|] [?|] [?|]]; simpl in *.

(** X7. On a page with the list container, the button and the message
    element, a submission on an empty catalogue never throws, whatever the
    form holds (the title is not even read): the list is emptied, the
    message for no results is shown and the button is hidden. *)
Theorem empty_catalogue_shows_message (event : Event) (w : World)
    (items b msg : Element) :
  books w = [] ->
  dataListItems (document w) = Some items ->
  dataListButton (document w) = Some b ->
  dataListMessage (document w) = Some msg ->
  exists w' b' msg',
    handleSearchFormSubmit event w = Return tt w'
    /\ rendered w' = []
    /\ dataListMessage (document w') = Some msg' /\ display msg' = "block"
    /\ dataListButton (document w') = Some b' /\ display b' = "none".
Proof.
  intros Hbooks Hitems Hb Hmsg.
  open_page w; try discriminate; subst; exec; do 3 eexists; repeat split.
Qed.

Lemma empty_catalogue_shows_message_witness :
  exists w' b' msg',
    handleSearchFormSubmit onlyAuthorAndGenre (world0 [] 1 fullPage)
    = Return tt w'
    /\ rendered w' = []
    /\ dataListMessage (document w') = Some msg' /\ display msg' = "block"
    /\ dataListButton (document w') = Some b' /\ display b' = "none".
Proof.
  exact (empty_catalogue_shows_message onlyAuthorAndGenre
           (world0 [] 1 fullPage) element0 element0 element0
           eq_refl eq_refl eq_refl eq_refl).
Defined.

(** X8. When the title field is missing or is a file and the catalogue is
    not empty, the submission ends in a [TypeError] before anything on the
    page is touched: only the default action of the event has been
    prevented. *)
Theorem missing_title_changes_nothing (event : Event) (w : World) :
  (forall t, getProperty (fromEntries (formData event)) "title" <> Str t) ->
  books w <> [] ->
  handleSearchFormSubmit event w = Throw TypeError (set_defaultPrevented true w).
Proof.
  intros Ht Hbooks.
  unfold handleSearchFormSubmit, searchResults, modify, get, mbind, M_bind.
  simpl. destruct (books w) as [|book rest]; [contradiction|].
  now rewrite searchLoop_not_string.
Qed.

Lemma missing_title_changes_nothing_witness :
  handleSearchFormSubmit onlyAuthorAndGenre (world0 [moby] 1 fullPage)
  = Throw TypeError (set_defaultPrevented true (world0 [moby] 1 fullPage)).
Proof.
  apply missing_title_changes_nothing.
  - intros t H. vm_compute in H. discriminate H.
  - discriminate.
Defined.

(** X9. With a list container and a message element, the update shows the
    message exactly when there is no result, and changes nothing else of the
    message element; the button need not exist. *)
Theorem empty_state_message (results : list Book) (w : World)
    (items msg : Element) :
  dataListItems (document w) = Some items ->
  dataListMessage (document w) = Some msg ->
  dataListMessage (document (finalWorld (updateBookList results w)))
  = Some (set_display (if bool_decide (results = []) then "block" else "none")
                      msg).
Proof.
  intros Hitems Hmsg.
  open_page w; try discriminate; injection Hmsg as ->; exec;
    now destruct results.
Qed.

Lemma empty_state_message_witness :
  dataListMessage
    (document (finalWorld (updateBookList [war] (world0 [] 1 fullPage))))
  = Some (set_display "none" element0).
Proof.
  exact (empty_state_message [war] (world0 [] 1 fullPage) element0 element0
           eq_refl eq_refl).
Defined.

(** X10. An update that finds the list container scrolls the window to
    the top and closes the search overlay, leaving the other properties of
    the overlay alone. *)
Theorem update_closes_overlay (results : list Book) (w : World)
    (items overlay : Element) :
  dataListItems (document w) = Some items ->
  dataSearchOverlay (document w) = Some overlay ->
  let w' := finalWorld (updateBookList results w) in
  scrollTop w' = 0
  /\ dataSearchOverlay (document w') = Some (set_open false overlay).
Proof.
  intros Hitems Hoverlay.
  open_page w; try discriminate; injection Hoverlay as ->; exec; now split.
Qed.

Lemma update_closes_overlay_witness :
  let w' := finalWorld (updateBookList [war] (world0 [] 1 fullPage)) in
  scrollTop w' = 0
  /\ dataSearchOverlay (document w') = Some (set_open false element0).
Proof.
  exact (update_closes_overlay [war] (world0 [] 1 fullPage) element0 element0
           eq_refl eq_refl).
Defined.





(** X13. The update replaces: what an earlier update wrote is overwritten
    by the next one, so that updating with [results1] and then with
    [results2] ends exactly as updating with [results2] alone, exception
    included. In particular an update done twice is the update done
    once. *)
Theorem last_update_wins (results1 results2 : list Book) (w : World) :
  updateBookList results2 (finalWorld (updateBookList results1 w))
  = updateBookList results2 w.
Proof. open_page w; exec; reflexivity. Qed.

Lemma handleSearchFormSubmit_around (event : Event) (w : World) :
  handleSearchFormSubmit event w
  = submitAround (searchLoop (fromEntries (formData event)) (books w) []) w.
Proof. reflexivity. Qed.

Lemma submitAround_books (loop : Completion (list Book)) (w : World) :
  books (finalWorld (submitAround loop w)) = books w.
Proof. destruct loop; open_page w; reflexivity. Qed.

Lemma submitAround_idempotent (loop : Completion (list Book)) (w : World) :
  submitAround loop (finalWorld (submitAround loop w)) = submitAround loop w.
Proof. destruct loop; open_page w; reflexivity. Qed.

(** X14. Submitting the same form twice ends as submitting it once, also
    when the submission throws. *)
Theorem submit_idempotent (event : Event) (w : World) :
  handleSearchFormSubmit event (finalWorld (handleSearchFormSubmit event w))
  = handleSearchFormSubmit event w.
Proof.
  rewrite !handleSearchFormSubmit_around, submitAround_books.
  apply submitAround_idempotent.
Qed.

(** X15. For a page size that is not negative, showing one more page
    lowers the remaining count, by the page size at most. *)
Theorem remaining_decreases_with_page (len p per : Z) :
  0 <= per ->
  remaining len p per - per <= remaining len (p + 1) per
  /\ remaining len (p + 1) per <= remaining len p per.
Proof.
  intros Hper. unfold remaining, hasRemaining, remainingBooks.
  destruct (Z.ltb_spec 0 (len - p * per));
    destruct (Z.ltb_spec 0 (len - (p + 1) * per)); lia.
Qed.

Lemma remaining_decreases_with_page_witness :
  remaining 5 1 2 - 2 <= remaining 5 (1 + 1) 2
  /\ remaining 5 (1 + 1) 2 <= remaining 5 1 2.
Proof. apply (remaining_decreases_with_page 5 1 2). lia. Defined.

(** ** The cancel button and the toggle listeners *)

(** X16. A click on the cancel button closes the search overlay and
    changes nothing else, whether the overlay was open or not. *)
Theorem cancel_click_closes_overlay (w : World) (overlay : Element) :
  dataSearchOverlay (document w) = Some overlay ->
  handleSearchCancelButtonClick w
  = Return tt (set_document
                 (with_dataSearchOverlay (set_open false overlay) (document w))
                 w).
Proof.
  intros Hoverlay. open_page w; try discriminate; injection Hoverlay as ->;
    exec; destruct overlay as [? ? ? [] ?]; reflexivity.
Qed.

Lemma cancel_click_closes_overlay_witness :
  handleSearchCancelButtonClick (world0 [moby] 1 fullPage)
  = Return tt (set_document
                 (with_dataSearchOverlay (set_open false element0) fullPage)
                 (world0 [moby] 1 fullPage)).
Proof.
  exact (cancel_click_closes_overlay (world0 [moby] 1 fullPage) element0
           eq_refl).
Defined.

(** Without a search overlay the handler of the cancel button ends in a
    [TypeError] and changes nothing. *)
Lemma handleSearchCancelButtonClick_null (w : World) :
  dataSearchOverlay (document w) = None ->
  handleSearchCancelButtonClick w = Throw TypeError w.
Proof.
  intros Hoverlay. unfold handleSearchCancelButtonClick, readOpen, mbind, M_bind.
  now rewrite Hoverlay.
Qed.

(** X17. The toggle listener of the search module enables the cancel
    button when the overlay is open and leaves the page alone when the
    overlay is closed: it never disables the button. A missing cancel button
    is no error. *)
Theorem toggle_enables_cancel_when_open (w : World) (overlay : Element) :
  dataSearchOverlay (document w) = Some overlay ->
  enableCancelOnToggle w
  = Return tt
      (match open overlay, searchCancelButton (document w) with
       | true, Some c =>
           set_document
             (with_searchCancelButton (set_disabled false c) (document w)) w
       | _, _ => w
       end).
Proof.
  intros Hoverlay. open_page w; try discriminate; injection Hoverlay as ->;
    exec; destruct (open overlay); reflexivity.
Qed.

Lemma toggle_enables_cancel_when_open_witness :
  enableCancelOnToggle (world0 [moby] 1 fullPage)
  = Return tt (set_document
                 (with_searchCancelButton (set_disabled false element0)
                    fullPage)
                 (world0 [moby] 1 fullPage))
  /\ enableCancelOnToggle (world0 [moby] 1 pageClosedOverlay)
     = Return tt (world0 [moby] 1 pageClosedOverlay).
Proof.
  split.
  - exact (toggle_enables_cancel_when_open (world0 [moby] 1 fullPage)
             element0 eq_refl).
  - exact (toggle_enables_cancel_when_open
             (world0 [moby] 1 pageClosedOverlay) closedOverlay eq_refl).
Defined.

(** X18. Where main.js sets up its own toggle listener, that is on a page
    with a cancel button and an overlay, that listener does what the toggle
    listener of the search module does. *)
Theorem toggle_listeners_agree (w : World) (cancel overlay : Element) :
  searchCancelButton (document w) = Some cancel ->
  dataSearchOverlay (document w) = Some overlay ->
  enableCapturedCancelOnToggle w = enableCancelOnToggle w.
Proof.
  intros Hcancel Hoverlay. open_page w; try discriminate; exec;
    destruct (open _); reflexivity.
Qed.

Lemma toggle_listeners_agree_witness :
  enableCapturedCancelOnToggle (world0 [moby] 1 fullPage)
  = enableCancelOnToggle (world0 [moby] 1 fullPage).
Proof.
  exact (toggle_listeners_agree (world0 [moby] 1 fullPage) element0 element0
           eq_refl eq_refl).
Defined.

(** X19. A submission that runs to its end leaves the search overlay
    closed, so that a click on the cancel button after it changes
    nothing. *)
Theorem cancel_after_submit_changes_nothing (event : Event) (w : World)
    (t : string) (items overlay : Element) :
  getProperty (fromEntries (formData event)) "title" = Str t ->
  dataListItems (document w) = Some items ->
  dataSearchOverlay (document w) = Some overlay ->
  let w' := finalWorld (handleSearchFormSubmit event w) in
  handleSearchFormSubmit event w = Return tt w'
  /\ dataSearchOverlay (document w') = Some (set_open false overlay)
  /\ handleSearchCancelButtonClick w' = Return tt w'.
Proof.
  intros Ht Hitems Hoverlay.
  cbv zeta.
  rewrite handleSearchFormSubmit_around, (searchLoop_filter _ t _ _ Ht).
  open_page w; try discriminate; injection Hoverlay as ->;
    unfold submitAround; exec; (split; [|split]); reflexivity.
Qed.

Lemma cancel_after_submit_changes_nothing_witness :
  let w' := finalWorld (handleSearchFormSubmit (submit "war" "any" "any")
                          (world0 [moby; war] 1 fullPage)) in
  handleSearchFormSubmit (submit "war" "any" "any")
    (world0 [moby; war] 1 fullPage) = Return tt w'
  /\ dataSearchOverlay (document w') = Some (set_open false element0)
  /\ handleSearchCancelButtonClick w' = Return tt w'.
Proof.
  exact (cancel_after_submit_changes_nothing (submit "war" "any" "any")
           (world0 [moby; war] 1 fullPage) "war" element0 element0
           eq_refl eq_refl eq_refl).
Defined.

(** ** Registration of the listeners *)

Ltac pexec :=
  unfold domContentLoaded, submitEvent, headerSearchClick, cancelClick,
    overlayToggle, mainLoaded, searchOverlayLoaded, searchModuleLoaded,
    initializeSearchCancelButton, initializeSearchOverlay, openSearchOverlay,
    focusSearchTitle, modifyPage, onWorld, freshPage, addNewListener;
  unfold mbind, P_bind; simpl.

Ltac open_doc w :=
  destruct w as [? ? ? ? [? ? ? ? ? ?] ? ? ?].

Lemma addEventListener_elem (f : Listener) (listeners : list Listener) :
  f ∈ addEventListener f listeners.
Proof.
  unfold addEventListener. case_bool_decide; [assumption|].
  apply elem_of_app. right. now left.
Qed.

Lemma addEventListener_idempotent (f : Listener) (listeners : list Listener) :
  addEventListener f (addEventListener f listeners)
  = addEventListener f listeners.
Proof.
  unfold addEventListener at 1.
  now rewrite bool_decide_eq_true_2 by apply addEventListener_elem.
Qed.

Lemma addEventListener_NoDup (f : Listener) (listeners : list Listener) :
  NoDup listeners -> NoDup (addEventListener f listeners).
Proof.
  intros Hnodup. unfold addEventListener. case_bool_decide; [assumption|].
  apply NoDup_app. split; [assumption|]. split.
  - intros x Hx Hx'. apply list_elem_of_singleton in Hx'. now subst.
  - apply NoDup_singleton.
Qed.

(** X20. [initializeSearchCancelButton] never throws and may be called any
    number of times: with a cancel button on the page the click handler is
    registered, a second call changes nothing, and a list of listeners
    without duplicates stays without duplicates; without a cancel button the
    call does nothing. *)
Theorem cancel_listener_registered_once (p : Page) :
  NoDup (cancelListeners p) ->
  exists p1,
    initializeSearchCancelButton p = PReturn tt p1
    /\ initializeSearchCancelButton p1 = PReturn tt p1
    /\ NoDup (cancelListeners p1)
    /\ match searchCancelButton (document (world p)) with
       | Some _ => SearchCancelClick ∈ cancelListeners p1
       | None => p1 = p
       end.
Proof.
  intros Hnodup. eexists. split; [reflexivity|].
  unfold initializeSearchCancelButton, modifyPage.
  destruct p as [w f h t cl tl]; simpl in *.
  destruct (searchCancelButton (document w)) as [c|] eqn:Hc; simpl;
    rewrite ?Hc; simpl.
  - rewrite addEventListener_idempotent.
    repeat split; [now apply addEventListener_NoDup|].
    apply addEventListener_elem.
  - repeat split. assumption.
Qed.

Lemma cancel_listener_registered_once_witness :
  exists p1,
    initializeSearchCancelButton
      (freshPage (world0 [moby] 1 fullPage) true true true) = PReturn tt p1
    /\ initializeSearchCancelButton p1 = PReturn tt p1
    /\ NoDup (cancelListeners p1)
    /\ SearchCancelClick ∈ cancelListeners p1.
Proof.
  exact (cancel_listener_registered_once
           (freshPage (world0 [moby] 1 fullPage) true true true)
           (NoDup_nil_2 : NoDup [])).
Defined.

(** The click listener of the header button opens the search overlay
    and gives the focus to the title input, and touches nothing else. *)
Lemma open_overlay_opens_and_focuses (p : Page) (overlay : Element)
    (focused : bool) :
  dataSearchOverlay (document (world p)) = Some overlay ->
  dataSearchTitle p = Some focused ->
  openSearchOverlay p
  = PReturn tt
      (set_dataSearchTitle (Some true)
         (set_world
            (set_document
               (with_dataSearchOverlay (set_open true overlay)
                  (document (world p)))
               (world p))
            p)).
Proof.
  intros Hoverlay Htitle. pexec. unfold assign. rewrite Hoverlay. simpl.
  now rewrite Htitle.
Qed.

(** X21. That listener guards neither lookup. Without an overlay it throws
    a [TypeError] and changes nothing, the focus included; with an overlay
    but without the title input it throws after having opened the
    overlay. *)
Theorem open_overlay_unguarded (p : Page) :
  match dataSearchOverlay (document (world p)), dataSearchTitle p with
  | None, _ => openSearchOverlay p = PThrow TypeError p
  | Some overlay, None =>
      openSearchOverlay p
      = PThrow TypeError
          (set_world
             (set_document
                (with_dataSearchOverlay (set_open true overlay)
                   (document (world p)))
                (world p))
             p)
  | Some _, Some _ => exists p', openSearchOverlay p = PReturn tt p'
  end.
Proof.
  pexec. unfold assign.
  destruct p as [w f h t cl tl]; simpl.
  destruct (dataSearchOverlay (document w)) as [overlay|]; simpl.
  - destruct t; simpl; eauto.
  - now destruct w.
Qed.

(** ** The page after [DOMContentLoaded] *)

(** X22. On a page with the form, the header button, the cancel button and
    the overlay, on which nothing was registered before, the listeners of
    [DOMContentLoaded] leave: one submit listener on the form and one click
    listener on the cancel button, although each handler is added more than
    once; two toggle listeners on the overlay and two click listeners on the
    header button, one per function expression evaluated. The elements
    themselves are not touched. *)
Theorem listeners_after_load (w : World) (title : bool)
    (cancel overlay : Element) :
  searchCancelButton (document w) = Some cancel ->
  dataSearchOverlay (document w) = Some overlay ->
  let p := domContentLoaded (freshPage w true true title) in
  world p = w
  /\ dataSearchForm p = Some [SearchFormSubmit]
  /\ cancelListeners p = [SearchCancelClick]
  /\ toggleListeners p = [ToggleOfSearch; ToggleOfMain]
  /\ dataHeaderSearch p = Some [OpenOverlay; OpenOverlay].
Proof.
  intros Hcancel Hoverlay. open_doc w.
  simpl in Hcancel, Hoverlay. subst. vm_compute. repeat split.
Qed.

Lemma listeners_after_load_witness :
  let p := domContentLoaded (freshPage (world0 [moby] 1 fullPage) true true true) in
  world p = world0 [moby] 1 fullPage
  /\ dataSearchForm p = Some [SearchFormSubmit]
  /\ cancelListeners p = [SearchCancelClick]
  /\ toggleListeners p = [ToggleOfSearch; ToggleOfMain]
  /\ dataHeaderSearch p = Some [OpenOverlay; OpenOverlay].
Proof.
  exact (listeners_after_load (world0 [moby] 1 fullPage) true element0 element0
           eq_refl eq_refl).
Defined.

Lemma world_onWorld {A} (m : M A) (p : Page) :
  world (finalPage (onWorld m p)) = finalWorld (m (world p)).
Proof. unfold onWorld. now destruct (m (world p)). Qed.

Lemma loaded_form (w : World) (header title : bool) :
  world (domContentLoaded (freshPage w true header title)) = w
  /\ dataSearchForm (domContentLoaded (freshPage w true header title))
     = Some [SearchFormSubmit].
Proof.
  open_doc w.
  destruct header, searchCancelButton0, dataSearchOverlay0; vm_compute;
    split; reflexivity.
Qed.

(** X23. Whatever else the page holds, once the listeners of
    [DOMContentLoaded] have run on a page with a search form, a submit event
    of the form does what one call of [handleSearchFormSubmit] does. *)
Theorem submit_after_load (event : Event) (w : World) (header title : bool) :
  world (submitEvent event (domContentLoaded (freshPage w true header title)))
  = finalWorld (handleSearchFormSubmit event w).
Proof.
  unfold submitEvent.
  destruct (loaded_form w header title) as [Hworld Hform].
  rewrite Hform. unfold dispatch, call. now rewrite world_onWorld, Hworld.
Qed.

(** X24. Opening and cancelling on the loaded page. A click on the header
    button opens the overlay and focuses the title input, and does not by
    itself enable the cancel button; a toggle event on the open overlay
    enables the cancel button; a click on the cancel button then closes the
    overlay and leaves the button enabled. *)
Theorem open_toggle_cancel (w : World) (cancel overlay : Element) :
  searchCancelButton (document w) = Some cancel ->
  dataSearchOverlay (document w) = Some overlay ->
  let p0 := domContentLoaded (freshPage w true true true) in
  let p1 := headerSearchClick p0 in
  let p2 := overlayToggle p1 in
  let p3 := cancelClick p2 in
  dataSearchOverlay (document (world p1)) = Some (set_open true overlay)
  /\ dataSearchTitle p1 = Some true
  /\ searchCancelButton (document (world p1)) = Some cancel
  /\ searchCancelButton (document (world p2))
     = Some (set_disabled false cancel)
  /\ dataSearchOverlay (document (world p3)) = Some (set_open false overlay)
  /\ searchCancelButton (document (world p3))
     = Some (set_disabled false cancel).
Proof.
  intros Hcancel Hoverlay. open_doc w.
  simpl in Hcancel, Hoverlay. subst. vm_compute. repeat split.
Qed.

Lemma open_toggle_cancel_witness :
  let p0 := domContentLoaded
              (freshPage (world0 [moby] 1 pageClosedOverlay) true true true) in
  let p1 := headerSearchClick p0 in
  let p2 := overlayToggle p1 in
  let p3 := cancelClick p2 in
  dataSearchOverlay (document (world p1)) = Some (set_open true closedOverlay)
  /\ dataSearchTitle p1 = Some true
  /\ searchCancelButton (document (world p1)) = Some element0
  /\ searchCancelButton (document (world p2))
     = Some (set_disabled false element0)
  /\ dataSearchOverlay (document (world p3))
     = Some (set_open false closedOverlay)
  /\ searchCancelButton (document (world p3))
     = Some (set_disabled false element0).
Proof.
  exact (open_toggle_cancel (world0 [moby] 1 pageClosedOverlay) element0
           closedOverlay eq_refl eq_refl).
Defined.

(** X25. Without the header button, [initializeSearchOverlay] throws a
    [TypeError]: the listener of the search module that calls it registers
    nothing, and the first listener of main.js ends in that error, but only
    after it has registered the submit, cancel and toggle listeners, which
    stay. *)
Theorem load_without_header_button (w : World) (title : bool)
    (cancel overlay : Element) :
  searchCancelButton (document w) = Some cancel ->
  dataSearchOverlay (document w) = Some overlay ->
  let p := freshPage w true false title in
  searchOverlayLoaded p = PThrow TypeError p
  /\ (exists p', mainLoaded p = PThrow TypeError p')
  /\ dataSearchForm (domContentLoaded p) = Some [SearchFormSubmit]
  /\ cancelListeners (domContentLoaded p) = [SearchCancelClick]
  /\ toggleListeners (domContentLoaded p) = [ToggleOfSearch; ToggleOfMain]
  /\ dataHeaderSearch (domContentLoaded p) = None.
Proof.
  intros Hcancel Hoverlay. open_doc w.
  simpl in Hcancel, Hoverlay. subst. vm_compute.
  repeat split. eauto.
Qed.

Lemma load_without_header_button_witness :
  let p := freshPage (world0 [moby] 1 fullPage) true false true in
  searchOverlayLoaded p = PThrow TypeError p
  /\ (exists p', mainLoaded p = PThrow TypeError p')
  /\ dataSearchForm (domContentLoaded p) = Some [SearchFormSubmit]
  /\ cancelListeners (domContentLoaded p) = [SearchCancelClick]
  /\ toggleListeners (domContentLoaded p) = [ToggleOfSearch; ToggleOfMain]
  /\ dataHeaderSearch (domContentLoaded p) = None.
Proof.
  exact (load_without_header_button (world0 [moby] 1 fullPage) true element0
           element0 eq_refl eq_refl).
Defined.

(** X26. The search module registers the click handler of the cancel
    button whenever the button exists, overlay or not. On a page with the
    button but without the overlay the handler is therefore registered, and
    a click makes it throw a [TypeError]; the page stays as it is. *)
Theorem cancel_listener_without_overlay (w : World) (cancel : Element)
    (form header title : bool) :
  searchCancelButton (document w) = Some cancel ->
  dataSearchOverlay (document w) = None ->
  let p := domContentLoaded (freshPage w form header title) in
  cancelListeners p = [SearchCancelClick]
  /\ toggleListeners p = []
  /\ call SearchCancelClick plainEvent p = PThrow TypeError p
  /\ cancelClick p = p.
Proof.
  intros Hcancel Hoverlay. open_doc w.
  simpl in Hcancel, Hoverlay. subst.
  destruct form, header; vm_compute; repeat split.
Qed.

Lemma cancel_listener_without_overlay_witness :
  let p := domContentLoaded
             (freshPage (world0 [moby] 1 pageWithoutOverlay) true true true) in
  cancelListeners p = [SearchCancelClick]
  /\ toggleListeners p = []
  /\ call SearchCancelClick plainEvent p = PThrow TypeError p
  /\ cancelClick p = p.
Proof.
  exact (cancel_listener_without_overlay (world0 [moby] 1 pageWithoutOverlay)
           element0 true true true eq_refl eq_refl).
Defined.
